(** * java_props.h: the platform property record and the encoding normalizer

  A shallow embedding of [src/java.base/share/native/libjava/java_props.h]:
  - a small C memory model (objects of bytes, pointers, NUL-terminated
    strings) and libc's [strcmp] on it;
  - [normalize_encoding], written in a state-and-error monad over that
    memory, statement by statement as in the header;
  - the declaration of [java_props_t], reified as the list of its members
    under a build configuration (the three preprocessor symbols the header
    tests). *)

From Stdlib Require Import ZArith List Bool Lia.
From Stdlib Require Import Strings.String Strings.Ascii Strings.Byte.
From stdpp Require Import base option gmap strings.

Import ListNotations.
Local Open Scope string_scope.
Local Open Scope list_scope.

(** ** Memory: objects, pointers, C strings *)

Module CMem.

(** An object is either the storage of a string literal, identified by the
    literal's text (C leaves open whether equal literals share storage), or
    an object that the caller owns, identified by a number. *)
Inductive block : Type :=
| Static (text : string)
| Dyn (id : N).

(** A [char*]: the null pointer, or an offset into an object. *)
Inductive ptr : Type :=
| NULL
| Ptr (b : block) (ofs : nat).

(** The caller-owned objects.  String literals are not stored here: their
    bytes are fixed by the program text. *)
Abbreviation mem := (gmap N (list byte)).

Definition NUL : byte := "000"%byte.

(** [unsigned char] value of a byte. *)
Definition uchar (x : byte) : Z := Z.of_N (Byte.to_N x).

(** The array a string literal denotes: its characters and a final NUL. *)
Definition literal_bytes (text : string) : list byte :=
  list_byte_of_string text ++ [NUL].

Definition block_bytes (m : mem) (b : block) : option (list byte) :=
  match b with
  | Static text => Some (literal_bytes text)
  | Dyn id => m !! id
  end.

(** The bytes from [p] to the end of its object; nothing for the null
    pointer or an object that does not exist. *)
Definition bytes_from (m : mem) (p : ptr) : option (list byte) :=
  match p with
  | NULL => None
  | Ptr b ofs =>
      match block_bytes m b with
      | Some bs => Some (skipn ofs bs)
      | None => None
      end
  end.

(** The characters before the first NUL; nothing when there is no NUL. *)
Fixpoint until_nul (bs : list byte) : option (list byte) :=
  match bs with
  | [] => None
  | x :: rest =>
      if Byte.eqb x NUL then Some []
      else match until_nul rest with
           | Some s => Some (x :: s)
           | None => None
           end
  end.

(** The C string [p] points to, when [p] points to one. *)
Definition cstring_at (m : mem) (p : ptr) : option string :=
  match bytes_from m p with
  | Some bs =>
      match until_nul bs with
      | Some s => Some (string_of_list_byte s)
      | None => None
      end
  | None => None
  end.

(** A string literal used as an expression: a pointer to its first byte. *)
Definition lit (text : string) : ptr := Ptr (Static text) 0.

(** *** State and undefined behaviour

    A computation reads and may write the caller's memory, and may have no
    defined result. *)
Definition M (A : Type) : Type := mem -> option (A * mem).

Definition ret {A} (x : A) : M A := fun m => Some (x, m).

Definition bind {A B} (c : M A) (k : A -> M B) : M B :=
  fun m =>
    match c m with
    | Some (x, m') => k x m'
    | None => None
    end.

Definition undefined {A} : M A := fun _ => None.

(** Reading through a pointer. *)
Definition read (p : ptr) : M (list byte) :=
  fun m =>
    match bytes_from m p with
    | Some bs => Some (bs, m)
    | None => None
    end.

End CMem.

Import CMem.

Notation "'let*' x ':=' c 'in' k" := (bind c (fun x => k))
  (at level 10, x name, c at level 100, k at level 200).

(** ** libc *)

Module Libc.

(** The loop of [strcmp] on the two arrays: advance while the bytes agree
    and are not NUL; the result is the difference of the first two bytes
    that differ, as [unsigned char].  Reading past the end of either array
    has no defined result. *)
Fixpoint strcmp_bytes (a b : list byte) : option Z :=
  match a, b with
  | x :: a', y :: b' =>
      if Byte.eqb x y then
        if Byte.eqb x NUL then Some 0%Z else strcmp_bytes a' b'
      else Some (uchar x - uchar y)%Z
  | _, _ => None
  end.

Definition strcmp (s1 s2 : ptr) : M Z :=
  let* a := read s1 in
  let* b := read s2 in
  match strcmp_bytes a b with
  | Some z => ret z
  | None => undefined
  end.

End Libc.

Import Libc.

(** ** The header *)

Module JavaProps.

(** [#define UTF_8 "UTF-8"] and the four that follow it. *)
Definition UTF_8 : string := "UTF-8".
Definition ISO_8859_1 : string := "ISO-8859-1".
Definition US_ASCII : string := "US-ASCII".
Definition ISO_8859_15 : string := "ISO-8859-15".
Definition WINDOWS_1251 : string := "windows-1251".

(** [e1 == 0 || e2 == 0]: the right operand is evaluated only when the
    left one is false. *)
Definition or_else (c1 c2 : M bool) : M bool :=
  let* b := c1 in
  if b : bool then ret true else c2.

Definition is_zero (c : M Z) : M bool :=
  let* z := c in ret (Z.eqb z 0).

Definition normalize_encoding (encoding : ptr) : M ptr :=
  let* c1 := is_zero (strcmp encoding (lit "ISO8859-1")) in
  if c1 : bool then ret (lit ISO_8859_1)
  else
    let* c2 := is_zero (strcmp encoding (lit "ISO8859-15")) in
    if c2 : bool then ret (lit ISO_8859_15)
    else
      let* c3 := or_else (is_zero (strcmp encoding (lit "ANSI_X3.4-1968")))
                         (is_zero (strcmp encoding (lit "ISO646-US"))) in
      if c3 : bool then ret (lit US_ASCII)
      else ret encoding.

(** *** The record [java_props_t]

    The header tests three preprocessor symbols; a build fixes each. *)
Record config : Type := {
  WIN32 : bool;
  JDK_ARCH_ABI_PROP_NAME : bool;
  MACOSX : bool
}.

(** The types that occur in the declaration.  [Tnchar] is the typedef name
    [nchar], kept as written; [resolve] replaces it by what it names. *)
Inductive ctype : Type :=
| Tchar
| TWCHAR
| Tint
| Tnchar
| Tconst (t : ctype)
| Tptr (t : ctype).

(** [#ifdef WIN32 typedef WCHAR nchar; #else typedef char nchar; #endif] *)
Definition nchar (cfg : config) : ctype :=
  if WIN32 cfg then TWCHAR else Tchar.

Fixpoint resolve (cfg : config) (t : ctype) : ctype :=
  match t with
  | Tnchar => nchar cfg
  | Tconst t' => Tconst (resolve cfg t')
  | Tptr t' => Tptr (resolve cfg t')
  | Tchar | TWCHAR | Tint => t
  end.

Record member : Type := {
  m_type : ctype;
  m_name : string
}.

Definition ifdef {A} (symbol : bool) (ms : list A) : list A :=
  if symbol then ms else [].

(** The members of [java_props_t], in declaration order. *)
Definition java_props_t (cfg : config) : list member :=
  [ {| m_type := Tptr Tchar; m_name := "os_name" |};
    {| m_type := Tptr Tchar; m_name := "os_version" |};
    {| m_type := Tptr Tchar; m_name := "os_arch" |} ]
  ++ ifdef (JDK_ARCH_ABI_PROP_NAME cfg)
  [ {| m_type := Tptr Tchar; m_name := "sun_arch_abi" |} ]
  ++
  [ {| m_type := Tptr Tnchar; m_name := "tmp_dir" |};
    {| m_type := Tptr Tnchar; m_name := "user_dir" |};

    {| m_type := Tptr Tchar; m_name := "file_separator" |};
    {| m_type := Tptr Tchar; m_name := "path_separator" |};
    {| m_type := Tptr Tchar; m_name := "line_separator" |};

    {| m_type := Tptr Tnchar; m_name := "user_name" |};
    {| m_type := Tptr Tnchar; m_name := "user_home" |};

    {| m_type := Tptr Tchar; m_name := "format_language" |};
    {| m_type := Tptr Tchar; m_name := "display_language" |};
    {| m_type := Tptr Tchar; m_name := "format_script" |};
    {| m_type := Tptr Tchar; m_name := "display_script" |};
    {| m_type := Tptr Tchar; m_name := "format_country" |};
    {| m_type := Tptr Tchar; m_name := "display_country" |};
    {| m_type := Tptr Tchar; m_name := "format_variant" |};
    {| m_type := Tptr Tchar; m_name := "display_variant" |};
    {| m_type := Tptr Tchar; m_name := "encoding" |};
    {| m_type := Tptr Tchar; m_name := "sun_jnu_encoding" |};
    {| m_type := Tptr Tchar; m_name := "sun_stdout_encoding" |};
    {| m_type := Tptr Tchar; m_name := "sun_stderr_encoding" |};

    {| m_type := Tptr Tchar; m_name := "unicode_encoding" |};

    {| m_type := Tptr (Tconst Tchar); m_name := "cpu_isalist" |};

    {| m_type := Tptr Tchar; m_name := "cpu_endian" |};

    {| m_type := Tptr Tchar; m_name := "data_model" |};

    {| m_type := Tptr Tchar; m_name := "patch_level" |} ]
  ++ ifdef (MACOSX cfg)
  [ {| m_type := Tint; m_name := "httpProxyEnabled" |};
    {| m_type := Tptr Tchar; m_name := "httpHost" |};
    {| m_type := Tptr Tchar; m_name := "httpPort" |};

    {| m_type := Tint; m_name := "httpsProxyEnabled" |};
    {| m_type := Tptr Tchar; m_name := "httpsHost" |};
    {| m_type := Tptr Tchar; m_name := "httpsPort" |};

    {| m_type := Tint; m_name := "ftpProxyEnabled" |};
    {| m_type := Tptr Tchar; m_name := "ftpHost" |};
    {| m_type := Tptr Tchar; m_name := "ftpPort" |};

    {| m_type := Tint; m_name := "socksProxyEnabled" |};
    {| m_type := Tptr Tchar; m_name := "socksHost" |};
    {| m_type := Tptr Tchar; m_name := "socksPort" |};

    {| m_type := Tptr Tchar; m_name := "exceptionList" |} ].

(** The declared type of the member called [name], if there is one. *)
Definition member_type (cfg : config) (name : string) : option ctype :=
  match find (fun d => String.eqb (m_name d) name) (java_props_t cfg) with
  | Some d => Some (m_type d)
  | None => None
  end.

(** Its type once typedef names are replaced. *)
Definition member_ctype (cfg : config) (name : string) : option ctype :=
  match member_type cfg name with
  | Some t => Some (resolve cfg t)
  | None => None
  end.

End JavaProps.

Import JavaProps.

(** ** What the specification says, in its own words

    These definitions follow the specification's text, not the header; the
    theorems compare them with the definitions above. *)

Module Spec.

(** The table of recognised aliases and their canonical names. *)
Definition alias_table : list (string * string) :=
  [ ("ISO8859-1", "ISO-8859-1");
    ("ISO8859-15", "ISO-8859-15");
    ("ANSI_X3.4-1968", "US-ASCII");
    ("ISO646-US", "US-ASCII") ].

Definition aliases : list string := map fst alias_table.

Definition is_alias (s : string) : bool :=
  existsb (String.eqb s) aliases.

(** The three canonical names the table can yield. *)
Definition canonical_names : list string :=
  ["ISO-8859-1"; "ISO-8859-15"; "US-ASCII"].

(** The filesystem/environment fields, by the member that holds each:
    temporary directory, working directory, path separator, list separator,
    line separator, user name, home directory. *)
Definition filesystem_environment_fields : list string :=
  ["tmp_dir"; "user_dir"; "file_separator"; "path_separator";
   "line_separator"; "user_name"; "user_home"].

(** Those among them that hold a directory or a name. *)
Definition native_text_fields : list string :=
  ["tmp_dir"; "user_dir"; "user_name"; "user_home"].

Definition separator_fields : list string :=
  ["file_separator"; "path_separator"; "line_separator"].

(** The proxy block: per protocol an enabled flag, a host and a port; then
    the exclusion list. *)
Definition proxy_protocols : list string := ["http"; "https"; "ftp"; "socks"].

Definition proxy_block : list member :=
  flat_map (fun proto =>
    [ {| m_type := Tint; m_name := String.append proto "ProxyEnabled" |};
      {| m_type := Tptr Tchar; m_name := String.append proto "Host" |};
      {| m_type := Tptr Tchar; m_name := String.append proto "Port" |} ])
    proxy_protocols
  ++ [ {| m_type := Tptr Tchar; m_name := "exceptionList" |} ].

(** The locale fields: a format and a display variant of each subtag. *)
Definition locale_subtags : list string :=
  ["language"; "script"; "country"; "variant"].

Definition locale_fields : list string :=
  flat_map (fun tag => [String.append "format_" tag; String.append "display_" tag])
    locale_subtags.

End Spec.

Import Spec.

(** The precondition of [normalize_encoding]: a non-null string. *)
Definition valid_cstring (m : mem) (p : ptr) : bool :=
  match cstring_at m p with
  | Some _ => true
  | None => false
  end.

(** The pointer the chain of comparisons selects for an argument [p] that
    points to the string [s]. *)
Definition selected (p : ptr) (s : string) : ptr :=
  if String.eqb s "ISO8859-1" then lit ISO_8859_1
  else if String.eqb s "ISO8859-15" then lit ISO_8859_15
  else if String.eqb s "ANSI_X3.4-1968" || String.eqb s "ISO646-US"
       then lit US_ASCII
  else p.

(** A memory to run the function on: a terminated alias, a lower-case
    look-alike followed by other bytes, and an alias without its NUL. *)
Definition sample_mem : mem :=
  list_to_map
    [ (1%N, literal_bytes "ISO646-US");
      (2%N, list_byte_of_string "iso8859-1" ++ [NUL] ++ list_byte_of_string "tail");
      (3%N, list_byte_of_string "ISO8859-1") ].

(** A computation that, when it returns, returns the memory it was given. *)
Definition read_only {A} (c : M A) : Prop :=
  forall m x m', c m = Some (x, m') -> m' = m.

(** A Windows build. *)
Definition windows : config :=
  {| WIN32 := true; JDK_ARCH_ABI_PROP_NAME := false; MACOSX := false |}.

(** The same build with [MACOSX] left undefined. *)
Definition without_macosx (cfg : config) : config :=
  {| WIN32 := WIN32 cfg;
     JDK_ARCH_ABI_PROP_NAME := JDK_ARCH_ABI_PROP_NAME cfg;
     MACOSX := false |}.

(** The member called [name] exists and is a pointer to native text. *)
Definition stored_as_native_text (cfg : config) (name : string) : Prop :=
  member_ctype cfg name = Some (Tptr (nchar cfg)).

(** An array without a NUL byte. *)
Definition nul_free (bs : list byte) : bool :=
  forallb (fun x => negb (Byte.eqb x NUL)) bs.

(** The pointer a call returns, when it returns. *)
Definition result (p : ptr) (m : mem) : option ptr :=
  match normalize_encoding p m with
  | Some (q, _) => Some q
  | None => None
  end.

(** The same build with [WIN32] set as given. *)
Definition with_win32 (w : bool) (cfg : config) : config :=
  {| WIN32 := w;
     JDK_ARCH_ABI_PROP_NAME := JDK_ARCH_ABI_PROP_NAME cfg;
     MACOSX := MACOSX cfg |}.

(** The same build with [JDK_ARCH_ABI_PROP_NAME] left undefined. *)
Definition without_arch_abi (cfg : config) : config :=
  {| WIN32 := WIN32 cfg;
     JDK_ARCH_ABI_PROP_NAME := false;
     MACOSX := MACOSX cfg |}.

(** ** Examples *)


Example normalize_literal :
  normalize_encoding (lit "ISO8859-1") ∅ = Some (lit "ISO-8859-1", ∅).
Proof. vm_compute. reflexivity. Qed.

Example normalize_dyn :
  normalize_encoding (Ptr (Dyn 3) 1)
    {[ 3%N := list_byte_of_string "xISO646-US" ++ [NUL; NUL] ]}
  = Some (lit "US-ASCII", {[ 3%N := list_byte_of_string "xISO646-US" ++ [NUL; NUL] ]}).
Proof. vm_compute. reflexivity. Qed.

Example normalize_empty :
  normalize_encoding (lit "") ∅ = Some (lit "", ∅).
Proof. vm_compute. reflexivity. Qed.

Example normalize_utf8 :
  normalize_encoding (lit UTF_8) ∅ = Some (lit "UTF-8", ∅).
Proof. vm_compute. reflexivity. Qed.

Example normalize_lower_case :
  normalize_encoding (lit "iso8859-1") ∅ = Some (lit "iso8859-1", ∅).
Proof. vm_compute. reflexivity. Qed.

Example normalize_longer :
  normalize_encoding (lit "ISO8859-15x") ∅ = Some (lit "ISO8859-15x", ∅).
Proof. vm_compute. reflexivity. Qed.

(** Outside the precondition there need not be a result: the null pointer,
    a pointer to no object, an alias whose terminator is missing. *)
Example normalize_null : normalize_encoding NULL sample_mem = None.
Proof. reflexivity. Qed.

Example normalize_dangling : normalize_encoding (Ptr (Dyn 9) 0) sample_mem = None.
Proof. reflexivity. Qed.

Example normalize_unterminated :
  normalize_encoding (Ptr (Dyn 3) 0) sample_mem = None.
Proof. vm_compute. reflexivity. Qed.

(** ** [strcmp] on NUL-terminated arrays *)

Section Strcmp.

Lemma uchar_inj (x y : byte) : uchar x = uchar y -> x = y.
Proof.
  unfold uchar. intros H. apply N2Z.inj in H.
  assert (E : Byte.of_N (Byte.to_N x) = Byte.of_N (Byte.to_N y)) by (now rewrite H).
  rewrite !Byte.of_to_N in E. now inversion E.
Qed.

(** On two arrays that both hold a string, the loop ends with a result, and
    the result is zero exactly when the strings are equal. *)
Lemma strcmp_bytes_spec (a : list byte) :
  forall b sa sb,
    until_nul a = Some sa ->
    until_nul b = Some sb ->
    exists z, strcmp_bytes a b = Some z /\ (z = 0%Z <-> sa = sb).
Proof.
  induction a as [|x a IH]; intros b sa sb Ha Hb; [discriminate|].
  destruct b as [|y b]; [discriminate|].
  simpl in Ha, Hb |- *.
  destruct (Byte.eqb x y) eqn:Exy.
  - apply Byte.byte_dec_bl in Exy. subst y.
    destruct (Byte.eqb x NUL) eqn:Ex.
    + inversion Ha; inversion Hb; subst. exists 0%Z. tauto.
    + destruct (until_nul a) as [sa'|] eqn:Ea; [|discriminate].
      destruct (until_nul b) as [sb'|] eqn:Eb; [|discriminate].
      inversion Ha; inversion Hb; subst; clear Ha Hb.
      destruct (IH b sa' sb' eq_refl Eb) as (z & Hz & Hiff).
      exists z. split; [exact Hz|].
      rewrite Hiff. split; intros E; [now subst | now inversion E].
  - apply Byte.eqb_false in Exy.
    exists (uchar x - uchar y)%Z. split; [reflexivity|].
    split.
    + intros E. exfalso. apply Exy, uchar_inj. lia.
    + intros E. exfalso. subst sb.
      destruct (Byte.eqb x NUL) eqn:Ex, (Byte.eqb y NUL) eqn:Ey.
      * apply Byte.byte_dec_bl in Ex, Ey. congruence.
      * destruct (until_nul b); congruence.
      * destruct (until_nul a); congruence.
      * destruct (until_nul a), (until_nul b); congruence.
Qed.

Lemma string_of_list_byte_inj (s t : list byte) :
  string_of_list_byte s = string_of_list_byte t -> s = t.
Proof.
  intros E.
  rewrite <- (list_byte_of_string_of_list_byte s),
          <- (list_byte_of_string_of_list_byte t).
  now rewrite E.
Qed.

Lemma strcmp_spec (m : mem) (p q : ptr) (s t : string) :
  cstring_at m p = Some s ->
  cstring_at m q = Some t ->
  exists z, strcmp p q m = Some (z, m) /\ (z = 0%Z <-> s = t).
Proof.
  unfold cstring_at, strcmp, bind, read. intros Hp Hq.
  destruct (bytes_from m p) as [a|]; [|discriminate].
  destruct (bytes_from m q) as [b|]; [|discriminate].
  destruct (until_nul a) as [sa|] eqn:Ea; [|discriminate].
  destruct (until_nul b) as [sb|] eqn:Eb; [|discriminate].
  inversion Hp; inversion Hq; subst; clear Hp Hq.
  destruct (strcmp_bytes_spec a b sa sb Ea Eb) as (z & Hz & Hiff).
  exists z. rewrite Hz. split; [reflexivity|].
  rewrite Hiff. split; intros E; [now subst | now apply string_of_list_byte_inj].
Qed.

(** The test [strcmp(p, q) == 0] decides equality of the two strings. *)
Lemma is_zero_strcmp (m : mem) (p q : ptr) (s t : string) :
  cstring_at m p = Some s ->
  cstring_at m q = Some t ->
  is_zero (strcmp p q) m = Some (String.eqb s t, m).
Proof.
  intros Hp Hq. destruct (strcmp_spec m p q s t Hp Hq) as (z & Hz & Hiff).
  unfold is_zero, bind. rewrite Hz. unfold ret. do 2 f_equal.
  destruct (String.eqb_spec s t) as [E|E].
  - apply Z.eqb_eq. now apply Hiff.
  - apply Z.eqb_neq. intros Ez. now apply E, Hiff.
Qed.

(** A string literal of the header holds its text, in any memory. *)
Lemma cstring_at_lit (m : mem) (text : string) :
  In text ["ISO8859-1"; "ISO8859-15"; "ANSI_X3.4-1968"; "ISO646-US";
           UTF_8; ISO_8859_1; US_ASCII; ISO_8859_15; WINDOWS_1251] ->
  cstring_at m (lit text) = Some text.
Proof.
  simpl. intros H.
  repeat (destruct H as [<-|H]; [reflexivity|]). contradiction.
Qed.

End Strcmp.

(** ** [normalize_encoding] on a string *)

Section Normalize.

Ltac in_list := simpl; repeat (first [left; reflexivity | right]).

Lemma bind_some {A B} (c : M A) (k : A -> M B) (m m' : mem) (x : A) :
  c m = Some (x, m') -> bind c k m = k x m'.
Proof. unfold bind. now intros ->. Qed.

Lemma or_else_spec (c1 c2 : M bool) (m : mem) (b1 b2 : bool) :
  c1 m = Some (b1, m) ->
  c2 m = Some (b2, m) ->
  or_else c1 c2 m = Some (b1 || b2, m).
Proof.
  intros H1 H2. unfold or_else. rewrite (bind_some _ _ _ _ _ H1).
  destruct b1; [reflexivity | exact H2].
Qed.

(** The whole function, on an argument that points to a string: it returns
    the selected pointer and the memory it was given. *)
Lemma normalize_encoding_spec (m : mem) (p : ptr) (s : string) :
  cstring_at m p = Some s ->
  normalize_encoding p m = Some (selected p s, m).
Proof.
  intros H. unfold normalize_encoding, selected.
  erewrite bind_some
    by (apply is_zero_strcmp; [exact H | apply cstring_at_lit; in_list]).
  destruct (String.eqb s "ISO8859-1"); [reflexivity|].
  erewrite bind_some
    by (apply is_zero_strcmp; [exact H | apply cstring_at_lit; in_list]).
  destruct (String.eqb s "ISO8859-15"); [reflexivity|].
  erewrite bind_some
    by (apply or_else_spec; apply is_zero_strcmp;
        first [exact H | apply cstring_at_lit; in_list]).
  destruct (String.eqb s "ANSI_X3.4-1968" || String.eqb s "ISO646-US");
    reflexivity.
Qed.

Lemma valid_cstring_inv (m : mem) (p : ptr) :
  valid_cstring m p = true -> exists s, cstring_at m p = Some s.
Proof.
  unfold valid_cstring. destruct (cstring_at m p) as [s|]; [eauto | discriminate].
Qed.

(** Outside the alias table the selected pointer is the argument. *)
Lemma selected_not_alias (p : ptr) (s : string) :
  is_alias s = false -> selected p s = p.
Proof.
  unfold is_alias, selected. simpl. rewrite orb_false_r.
  intros H. apply orb_false_elim in H as [H1 H]. rewrite H1.
  apply orb_false_elim in H as [H2 H]. rewrite H2. now rewrite H.
Qed.

Lemma is_alias_false (s : string) : ~ In s aliases -> is_alias s = false.
Proof.
  intros H. unfold is_alias.
  destruct (existsb (String.eqb s) aliases) eqn:E; [|reflexivity].
  apply existsb_exists in E as (x & Hx & Ex).
  apply String.eqb_eq in Ex. now subst.
Qed.

(** The string behind the selected pointer. *)
Lemma selected_cstring (m : mem) (p : ptr) (s : string) :
  cstring_at m p = Some s ->
  cstring_at m (selected p s)
  = Some (if String.eqb s "ISO8859-1" then "ISO-8859-1"
          else if String.eqb s "ISO8859-15" then "ISO-8859-15"
          else if String.eqb s "ANSI_X3.4-1968" || String.eqb s "ISO646-US"
               then "US-ASCII"
          else s).
Proof.
  intros H. unfold selected.
  destruct (String.eqb s "ISO8859-1"); [reflexivity|].
  destruct (String.eqb s "ISO8859-15"); [reflexivity|].
  destruct (String.eqb s "ANSI_X3.4-1968" || String.eqb s "ISO646-US");
    [reflexivity | exact H].
Qed.

End Normalize.

(** ** The normalizer: the claims *)

Section NormalizeClaims.

Lemma read_only_ret {A} (x : A) : read_only (ret x).
Proof. intros m y m' E. now inversion E. Qed.

Lemma read_only_bind {A B} (c : M A) (k : A -> M B) :
  read_only c -> (forall x, read_only (k x)) -> read_only (bind c k).
Proof.
  intros Hc Hk m y m'. unfold bind.
  destruct (c m) as [[x m1]|] eqn:E; [|discriminate].
  intros E'. apply Hc in E. apply Hk in E'. congruence.
Qed.

Lemma read_only_read (p : ptr) : read_only (read p).
Proof.
  intros m x m'. unfold read.
  destruct (bytes_from m p); [|discriminate]. intros E. now inversion E.
Qed.

Lemma read_only_strcmp (p q : ptr) : read_only (strcmp p q).
Proof.
  unfold strcmp.
  apply read_only_bind; [apply read_only_read | intros a].
  apply read_only_bind; [apply read_only_read | intros b].
  destruct (strcmp_bytes a b); [apply read_only_ret | discriminate].
Qed.

Lemma read_only_is_zero (c : M Z) : read_only c -> read_only (is_zero c).
Proof.
  intros H. apply read_only_bind; [exact H | intros z; apply read_only_ret].
Qed.

Lemma read_only_or_else (c1 c2 : M bool) :
  read_only c1 -> read_only c2 -> read_only (or_else c1 c2).
Proof.
  intros H1 H2. apply read_only_bind; [exact H1 | intros [|]];
    [apply read_only_ret | exact H2].
Qed.

(** The function never writes: whenever it returns, the memory is the one it
    was given, also on arguments that are not strings. *)
Lemma normalize_encoding_frame (p : ptr) : read_only (normalize_encoding p).
Proof.
  unfold normalize_encoding.
  repeat first
    [ apply read_only_ret
    | apply read_only_is_zero
    | apply read_only_strcmp
    | apply read_only_or_else
    | apply read_only_bind; [|intros [|]] ].
Qed.

(** C1. Each of the four aliases of the table is mapped to its canonical
    name: called on a pointer to "ISO8859-1", "ISO8859-15", "ANSI_X3.4-1968"
    or "ISO646-US", the function returns the literal "ISO-8859-1",
    "ISO-8859-15", "US-ASCII" and "US-ASCII" respectively. *)
Theorem normalize_encoding_alias (m : mem) (p : ptr) (alias canon : string) :
  In (alias, canon) alias_table ->
  cstring_at m p = Some alias ->
  normalize_encoding p m = Some (lit canon, m)
  /\ cstring_at m (lit canon) = Some canon.
Proof.
  intros Hin H. rewrite (normalize_encoding_spec _ _ _ H).
  simpl in Hin.
  destruct Hin as [E|[E|[E|[E|[]]]]]; inversion E; subst; split; reflexivity.
Qed.

Lemma normalize_encoding_alias_witness :
  In ("ISO646-US", "US-ASCII") alias_table
  /\ cstring_at sample_mem (Ptr (Dyn 1) 0) = Some "ISO646-US"
  /\ normalize_encoding (Ptr (Dyn 1) 0) sample_mem
     = Some (lit "US-ASCII", sample_mem)
  /\ cstring_at sample_mem (lit "US-ASCII") = Some "US-ASCII".
Proof.
  split; [simpl; tauto|]. split; [reflexivity|].
  apply (normalize_encoding_alias sample_mem (Ptr (Dyn 1) 0)
           "ISO646-US" "US-ASCII"); [simpl; tauto | reflexivity].
Defined.

(** C2. On every string that is not one of the four aliases the function
    returns its argument: the same pointer, hence the same string.  The
    comparison is exact, so a string that differs from an alias in case, or
    extends or shortens one, is not an alias. *)
Theorem normalize_encoding_identity (m : mem) (p : ptr) (s : string) :
  cstring_at m p = Some s ->
  is_alias s = false ->
  normalize_encoding p m = Some (p, m).
Proof.
  intros H Hs. rewrite (normalize_encoding_spec _ _ _ H).
  now rewrite (selected_not_alias _ _ Hs).
Qed.

Lemma normalize_encoding_identity_witness :
  cstring_at sample_mem (Ptr (Dyn 2) 0) = Some "iso8859-1"
  /\ is_alias "iso8859-1" = false
  /\ normalize_encoding (Ptr (Dyn 2) 0) sample_mem
     = Some (Ptr (Dyn 2) 0, sample_mem).
Proof.
  split; [reflexivity|]. split; [reflexivity|].
  apply (normalize_encoding_identity sample_mem (Ptr (Dyn 2) 0) "iso8859-1");
    reflexivity.
Defined.

(** C3. The function is idempotent: on a string, calling it on its own
    result returns that result again. *)
Theorem normalize_encoding_idempotent (m : mem) (p : ptr) :
  valid_cstring m p = true ->
  exists q,
    normalize_encoding p m = Some (q, m)
    /\ (let* r := normalize_encoding p in normalize_encoding r) m = Some (q, m).
Proof.
  intros Hv. destruct (valid_cstring_inv _ _ Hv) as (s & H).
  exists (selected p s).
  pose proof (normalize_encoding_spec _ _ _ H) as H1.
  split; [exact H1|].
  rewrite (bind_some _ _ _ _ _ H1).
  rewrite (normalize_encoding_spec _ _ _ (selected_cstring _ _ _ H)).
  do 2 f_equal. unfold selected at 2 3.
  destruct (String.eqb s "ISO8859-1") eqn:E1; [reflexivity|].
  destruct (String.eqb s "ISO8859-15") eqn:E2; [reflexivity|].
  destruct (String.eqb s "ANSI_X3.4-1968" || String.eqb s "ISO646-US") eqn:E3;
    [reflexivity|].
  unfold selected. now rewrite E1, E2, E3.
Qed.

Lemma normalize_encoding_idempotent_witness :
  valid_cstring sample_mem (Ptr (Dyn 1) 0) = true
  /\ exists q,
       normalize_encoding (Ptr (Dyn 1) 0) sample_mem = Some (q, sample_mem)
       /\ (let* r := normalize_encoding (Ptr (Dyn 1) 0) in normalize_encoding r)
            sample_mem = Some (q, sample_mem).
Proof.
  split; [reflexivity|].
  apply (normalize_encoding_idempotent sample_mem (Ptr (Dyn 1) 0)). reflexivity.
Defined.

(** C4. On a non-null string the function is total: it returns a pointer;
    the branch without a defined result is not taken. *)
Theorem normalize_encoding_total (m : mem) (p : ptr) :
  valid_cstring m p = true ->
  exists q m', normalize_encoding p m = Some (q, m').
Proof.
  intros Hv. destruct (valid_cstring_inv _ _ Hv) as (s & H).
  exists (selected p s), m. now apply normalize_encoding_spec.
Qed.

Lemma normalize_encoding_total_witness :
  valid_cstring sample_mem (Ptr (Dyn 2) 3) = true
  /\ exists q m', normalize_encoding (Ptr (Dyn 2) 3) sample_mem = Some (q, m').
Proof.
  split; [reflexivity|].
  apply (normalize_encoding_total sample_mem (Ptr (Dyn 2) 3)). reflexivity.
Defined.

(** C5. The function is pure and deterministic: a call on a string leaves
    the memory, and so the string itself, as it was, and two calls on equal
    strings, wherever they are stored, return equal strings. *)
Theorem normalize_encoding_pure (m1 m2 : mem) (p1 p2 : ptr) (s : string) :
  cstring_at m1 p1 = Some s ->
  cstring_at m2 p2 = Some s ->
  exists q1 q2 t,
    normalize_encoding p1 m1 = Some (q1, m1)
    /\ normalize_encoding p2 m2 = Some (q2, m2)
    /\ cstring_at m1 q1 = Some t
    /\ cstring_at m2 q2 = Some t.
Proof.
  intros H1 H2.
  exists (selected p1 s), (selected p2 s). eexists.
  split; [now apply normalize_encoding_spec|].
  split; [now apply normalize_encoding_spec|].
  split; [now apply selected_cstring|].
  now apply selected_cstring.
Qed.

Lemma normalize_encoding_pure_witness :
  cstring_at sample_mem (Ptr (Dyn 1) 0) = Some "ISO646-US"
  /\ cstring_at ∅ (lit "ISO646-US") = Some "ISO646-US"
  /\ exists q1 q2 t,
       normalize_encoding (Ptr (Dyn 1) 0) sample_mem = Some (q1, sample_mem)
       /\ normalize_encoding (lit "ISO646-US") ∅ = Some (q2, ∅)
       /\ cstring_at sample_mem q1 = Some t
       /\ cstring_at ∅ q2 = Some t.
Proof.
  split; [reflexivity|]. split; [reflexivity|].
  apply (normalize_encoding_pure sample_mem ∅ (Ptr (Dyn 1) 0) (lit "ISO646-US")
           "ISO646-US"); reflexivity.
Defined.

(** C10. On a string [s] the result is the argument or one of the three
    literals "ISO-8859-1", "ISO-8859-15", "US-ASCII": it is never the null
    pointer, it points to [s] or to one of those three names, and it points
    to "windows-1251" only when [s] is "windows-1251". *)
Theorem normalize_encoding_range (m : mem) (p : ptr) (s : string) :
  cstring_at m p = Some s ->
  exists q t,
    normalize_encoding p m = Some (q, m)
    /\ cstring_at m q = Some t
    /\ (q = p \/ q = lit ISO_8859_1 \/ q = lit ISO_8859_15 \/ q = lit US_ASCII)
    /\ (t = s \/ In t canonical_names)
    /\ q <> NULL
    /\ (t = WINDOWS_1251 -> s = WINDOWS_1251).
Proof.
  intros H. exists (selected p s). eexists.
  split; [now apply normalize_encoding_spec|].
  split; [now apply selected_cstring|].
  unfold selected.
  destruct (String.eqb s "ISO8859-1");
    [repeat split; [tauto | simpl; tauto | discriminate | discriminate]|].
  destruct (String.eqb s "ISO8859-15");
    [repeat split; [tauto | simpl; tauto | discriminate | discriminate]|].
  destruct (String.eqb s "ANSI_X3.4-1968" || String.eqb s "ISO646-US");
    [repeat split; [tauto | simpl; tauto | discriminate | discriminate]|].
  repeat split; [tauto | tauto | | tauto].
  intros ->. discriminate.
Qed.

Lemma normalize_encoding_range_witness :
  cstring_at sample_mem (Ptr (Dyn 2) 0) = Some "iso8859-1"
  /\ exists q t,
       normalize_encoding (Ptr (Dyn 2) 0) sample_mem = Some (q, sample_mem)
       /\ cstring_at sample_mem q = Some t
       /\ (q = Ptr (Dyn 2) 0 \/ q = lit ISO_8859_1 \/ q = lit ISO_8859_15
           \/ q = lit US_ASCII)
       /\ (t = "iso8859-1" \/ In t canonical_names)
       /\ q <> NULL
       /\ (t = WINDOWS_1251 -> "iso8859-1" = WINDOWS_1251).
Proof.
  split; [reflexivity|].
  apply (normalize_encoding_range sample_mem (Ptr (Dyn 2) 0) "iso8859-1").
  reflexivity.
Defined.

End NormalizeClaims.

(** ** The record: the claims *)

Section RecordClaims.

Ltac all_builds cfg := destruct cfg as [[|] [|] [|]].

(** X11. Member names are unique in every build, so a name selects one
    member. *)
Lemma java_props_t_names_unique (cfg : config) :
  NoDup (map m_name (java_props_t cfg)).
Proof.
  all_builds cfg; apply (bool_decide_unpack _); vm_compute; exact I.
Qed.

(** C6, as stated, fails: on Windows, where [nchar] is [WCHAR], the list
    separator is one of the filesystem/environment fields and is declared
    [char *], not [nchar *]. *)
Lemma path_separator_not_native_on_windows :
  In "path_separator" filesystem_environment_fields
  /\ member_ctype windows "path_separator" = Some (Tptr Tchar)
  /\ ~ stored_as_native_text windows "path_separator".
Proof.
  split; [simpl; tauto|]. split; [reflexivity|].
  unfold stored_as_native_text. vm_compute. discriminate.
Qed.

(** C6, amended. In every build the temporary directory, the working
    directory, the user name and the home directory are declared [nchar *],
    native text, which is [WCHAR *] with [WIN32] and [char *] without; the
    three separators are declared [char *] in every build. *)
Theorem native_text_members (cfg : config) :
  Forall (fun f => member_type cfg f = Some (Tptr Tnchar)
                   /\ stored_as_native_text cfg f) native_text_fields
  /\ Forall (fun f => member_type cfg f = Some (Tptr Tchar)) separator_fields
  /\ nchar cfg = (if WIN32 cfg then TWCHAR else Tchar).
Proof.
  unfold stored_as_native_text.
  all_builds cfg; (split; [|split]); repeat constructor.
Qed.

(** C7. The proxy block is there exactly when [MACOSX] is defined, whatever
    the other symbols: the members of a build are those of the same build
    without [MACOSX], followed with [MACOSX] by the block.  The block holds,
    for each of http, https, ftp and socks, an [int] enabled flag and
    [char *] host and port, and last the [char *] exclusion list; none of
    these names is a member without [MACOSX]. *)
Theorem proxy_block_macosx_only (cfg : config) :
  java_props_t cfg
  = java_props_t (without_macosx cfg) ++ ifdef (MACOSX cfg) proxy_block
  /\ Forall (fun d => member_type cfg (m_name d)
                      = if MACOSX cfg then Some (m_type d) else None)
            proxy_block
  /\ length proxy_block = 13.
Proof.
  all_builds cfg; (split; [|split]); try reflexivity; repeat constructor.
Qed.

(** C8. The record has eight locale members, pairwise distinct: a format and
    a display variant of each of language, script, country and variant, each
    a [char *], in every build. *)
Theorem locale_members (cfg : config) :
  locale_fields
  = ["format_language"; "display_language"; "format_script"; "display_script";
     "format_country"; "display_country"; "format_variant"; "display_variant"]
  /\ length locale_fields = 8
  /\ NoDup locale_fields
  /\ Forall (fun f => member_type cfg f = Some (Tptr Tchar)) locale_fields.
Proof.
  split; [reflexivity|]. split; [reflexivity|].
  split; [apply (bool_decide_unpack _); vm_compute; exact I|].
  all_builds cfg; repeat constructor.
Qed.

End RecordClaims.

(** ** [strcmp]: further properties *)

Section StrcmpMore.

Lemma byte_eqb_refl (x : byte) : Byte.eqb x x = true.
Proof. now apply Byte.byte_dec_lb. Qed.



(** Without a NUL the loop cannot end on equal bytes: it has no result, or
    a result that is not zero. *)
Lemma strcmp_bytes_nul_free (a : list byte) :
  forall b z, nul_free a = true -> strcmp_bytes a b = Some z -> z <> 0%Z.
Proof.
  induction a as [|x a IH]; intros [|y b] z Hf H; try discriminate.
  simpl in Hf, H. apply andb_true_iff in Hf as [Hx Hf].
  apply negb_true_iff in Hx.
  destruct (Byte.eqb x y) eqn:E.
  - rewrite Hx in H. now apply (IH b).
  - inversion H. apply Byte.eqb_false in E. intros Ez. apply E, uchar_inj. lia.
Qed.

(** An array without a NUL that is a prefix of the other one is read past
    its end. *)
Lemma strcmp_bytes_prefix (a : list byte) :
  forall k, nul_free a = true -> strcmp_bytes a (a ++ k) = None.
Proof.
  induction a as [|x a IH]; intros k Hf; [reflexivity|].
  simpl in Hf |- *. apply andb_true_iff in Hf as [Hx Hf].
  apply negb_true_iff in Hx.
  rewrite byte_eqb_refl, Hx. now apply IH.
Qed.

Lemma nul_free_app_l (a b : list byte) :
  nul_free (a ++ b) = true -> nul_free a = true.
Proof.
  unfold nul_free. rewrite forallb_app. intros H.
  now apply andb_true_iff in H as [H _].
Qed.



End StrcmpMore.

(** ** The normalizer outside its precondition *)

Section NormalizeEdges.

Lemma bytes_from_lit (m : mem) (text : string) :
  bytes_from m (lit text) = Some (literal_bytes text).
Proof. reflexivity. Qed.

(** One test of the chain on an array without a NUL: no result, or false. *)
Lemma is_zero_strcmp_nul_free (m : mem) (p : ptr) (bs : list byte) (text : string) :
  bytes_from m p = Some bs ->
  nul_free bs = true ->
  is_zero (strcmp p (lit text)) m = None
  \/ is_zero (strcmp p (lit text)) m = Some (false, m).
Proof.
  intros Hb Hf. unfold is_zero, strcmp, bind, read.
  rewrite Hb, bytes_from_lit.
  destruct (strcmp_bytes bs (literal_bytes text)) as [z|] eqn:E;
    [right | left; reflexivity].
  unfold ret. do 2 f_equal. apply Z.eqb_neq.
  now apply (strcmp_bytes_nul_free bs (literal_bytes text)).
Qed.

(** The same test when the array is a prefix of the literal's text. *)
Lemma is_zero_strcmp_prefix (m : mem) (p : ptr) (bs rest : list byte) (text : string) :
  bytes_from m p = Some bs ->
  nul_free bs = true ->
  bs ++ rest = list_byte_of_string text ->
  is_zero (strcmp p (lit text)) m = None.
Proof.
  intros Hb Hf Hpre. unfold is_zero, strcmp, bind, read.
  rewrite Hb, bytes_from_lit. unfold literal_bytes.
  rewrite <- Hpre, <- app_assoc.
  now rewrite (strcmp_bytes_prefix bs (rest ++ [NUL]) Hf).
Qed.

(** X2. The argument must point into an object: on the null pointer, or a
    pointer to no object, the first [strcmp] already has no result. *)
Theorem normalize_encoding_no_object (m : mem) (p : ptr) :
  bytes_from m p = None -> normalize_encoding p m = None.
Proof.
  intros H. unfold normalize_encoding, is_zero, strcmp, bind, read.
  now rewrite H.
Qed.

Lemma normalize_encoding_no_object_witness :
  bytes_from sample_mem NULL = None
  /\ normalize_encoding NULL sample_mem = None.
Proof.
  split; [reflexivity|].
  apply (normalize_encoding_no_object sample_mem NULL). reflexivity.
Defined.

(** X3. The terminator is required: when the bytes from the argument to the end
    of its object are a prefix of an alias, with no NUL, the comparison with
    that alias reads past the end of the object and the call has no
    result. *)
Theorem normalize_encoding_overread
    (m : mem) (p : ptr) (bs rest : list byte) (alias : string) :
  bytes_from m p = Some bs ->
  In alias aliases ->
  bs ++ rest = list_byte_of_string alias ->
  normalize_encoding p m = None.
Proof.
  intros Hb Hin Hpre.
  assert (Hf : nul_free bs = true).
  { apply (nul_free_app_l bs rest). rewrite Hpre.
    simpl in Hin.
    destruct Hin as [<-|[<-|[<-|[<-|[]]]]]; reflexivity. }
  unfold normalize_encoding, or_else, bind.
  simpl in Hin.
  destruct Hin as [<-|[<-|[<-|[<-|[]]]]].
  - now rewrite (is_zero_strcmp_prefix m p bs rest _ Hb Hf Hpre).
  - destruct (is_zero_strcmp_nul_free m p bs "ISO8859-1" Hb Hf) as [E|E];
      rewrite E; [reflexivity|]. cbv beta iota.
    now rewrite (is_zero_strcmp_prefix m p bs rest _ Hb Hf Hpre).
  - destruct (is_zero_strcmp_nul_free m p bs "ISO8859-1" Hb Hf) as [E|E];
      rewrite E; [reflexivity|]. cbv beta iota.
    destruct (is_zero_strcmp_nul_free m p bs "ISO8859-15" Hb Hf) as [E'|E'];
      rewrite E'; [reflexivity|]. cbv beta iota.
    now rewrite (is_zero_strcmp_prefix m p bs rest _ Hb Hf Hpre).
  - destruct (is_zero_strcmp_nul_free m p bs "ISO8859-1" Hb Hf) as [E|E];
      rewrite E; [reflexivity|]. cbv beta iota.
    destruct (is_zero_strcmp_nul_free m p bs "ISO8859-15" Hb Hf) as [E'|E'];
      rewrite E'; [reflexivity|]. cbv beta iota.
    destruct (is_zero_strcmp_nul_free m p bs "ANSI_X3.4-1968" Hb Hf) as [E''|E''];
      rewrite E''; [reflexivity|]. cbv beta iota.
    now rewrite (is_zero_strcmp_prefix m p bs rest _ Hb Hf Hpre).
Qed.

Lemma normalize_encoding_overread_witness :
  bytes_from sample_mem (Ptr (Dyn 3) 0) = Some (list_byte_of_string "ISO8859-1")
  /\ In "ISO8859-1" aliases
  /\ list_byte_of_string "ISO8859-1" ++ [] = list_byte_of_string "ISO8859-1"
  /\ normalize_encoding (Ptr (Dyn 3) 0) sample_mem = None.
Proof.
  split; [reflexivity|]. split; [simpl; tauto|]. split; [reflexivity|].
  apply (normalize_encoding_overread sample_mem (Ptr (Dyn 3) 0)
           (list_byte_of_string "ISO8859-1") [] "ISO8859-1");
    [reflexivity | simpl; tauto | reflexivity].
Defined.

(** One test of the chain, in terms of the bytes it reads. *)
Lemma is_zero_strcmp_bytes (m : mem) (p : ptr) (text : string) :
  is_zero (strcmp p (lit text)) m
  = match bytes_from m p with
    | Some bs =>
        match strcmp_bytes bs (literal_bytes text) with
        | Some z => Some (Z.eqb z 0, m)
        | None => None
        end
    | None => None
    end.
Proof.
  unfold is_zero, strcmp, bind, read.
  destruct (bytes_from m p) as [bs|]; [|reflexivity].
  cbv beta iota. rewrite bytes_from_lit. cbv beta iota.
  now destruct (strcmp_bytes bs (literal_bytes text)).
Qed.

(** X4. The returned pointer depends on nothing but the bytes from the argument
    to the end of its object: two memories that agree there give the same
    pointer, or both no result, whatever else they hold. *)
Theorem normalize_encoding_local (m1 m2 : mem) (p : ptr) :
  bytes_from m1 p = bytes_from m2 p ->
  result p m1 = result p m2.
Proof.
  intros H.
  unfold result, normalize_encoding, or_else, bind.
  destruct (bytes_from m2 p) as [bs|] eqn:Eb;
    [|now rewrite !is_zero_strcmp_bytes, H, Eb].
  do 4 (rewrite !is_zero_strcmp_bytes, ?H, ?Eb;
        match goal with
        | |- context [strcmp_bytes bs ?l] =>
            let z := fresh "z" in
            destruct (strcmp_bytes bs l) as [z|]; [destruct (Z.eqb z 0)|]
        end;
        cbv beta iota delta [ret]; try reflexivity).
Qed.

Lemma normalize_encoding_local_witness :
  bytes_from sample_mem (Ptr (Dyn 1) 0)
  = bytes_from (<[5%N := [NUL]]> (delete 2%N sample_mem)) (Ptr (Dyn 1) 0)
  /\ result (Ptr (Dyn 1) 0) sample_mem
     = result (Ptr (Dyn 1) 0) (<[5%N := [NUL]]> (delete 2%N sample_mem)).
Proof.
  split; [reflexivity|].
  apply (normalize_encoding_local sample_mem
           (<[5%N := [NUL]]> (delete 2%N sample_mem)) (Ptr (Dyn 1) 0)).
  reflexivity.
Defined.

End NormalizeEdges.

(** ** What a caller can rely on *)

Section NormalizeUse.

Lemma is_alias_cases (s : string) :
  is_alias s
  = (String.eqb s "ISO8859-1"
     || (String.eqb s "ISO8859-15"
         || (String.eqb s "ANSI_X3.4-1968" || String.eqb s "ISO646-US"))).
Proof. unfold is_alias. simpl. now rewrite orb_false_r. Qed.

(** For an alias the selected pointer is one of the three literals. *)
Lemma selected_alias (p : ptr) (s : string) :
  is_alias s = true ->
  exists canon, selected p s = lit canon /\ In canon canonical_names /\ canon <> s.
Proof.
  rewrite is_alias_cases. unfold selected. intros H.
  destruct (String.eqb s "ISO8859-1") eqn:E1.
  { apply String.eqb_eq in E1. subst s.
    exists "ISO-8859-1". repeat split; [simpl; tauto | discriminate]. }
  destruct (String.eqb s "ISO8859-15") eqn:E2.
  { apply String.eqb_eq in E2. subst s.
    exists "ISO-8859-15". repeat split; [simpl; tauto | discriminate]. }
  simpl in H. rewrite H.
  exists "US-ASCII". repeat split; [simpl; tauto|].
  apply orb_true_iff in H as [H|H]; apply String.eqb_eq in H; subst s;
    discriminate.
Qed.

Lemma cstring_at_canonical (m : mem) (canon : string) :
  In canon canonical_names -> cstring_at m (lit canon) = Some canon.
Proof.
  simpl. intros [<-|[<-|[<-|[]]]]; reflexivity.
Qed.

(** X5. Whether the name was replaced can be read off the pointer: on a string,
    the call returns its argument exactly when the string is not an alias. *)
Theorem normalize_encoding_same_pointer_iff (m : mem) (p : ptr) (s : string) :
  cstring_at m p = Some s ->
  (normalize_encoding p m = Some (p, m) <-> is_alias s = false).
Proof.
  intros H. rewrite (normalize_encoding_spec _ _ _ H). split.
  - intros E. destruct (is_alias s) eqn:Ea; [exfalso | reflexivity].
    destruct (selected_alias p s Ea) as (canon & Hsel & Hin & Hne).
    inversion E as [Ep]. rewrite Hsel in Ep. rewrite <- Ep in H.
    rewrite (cstring_at_canonical m canon Hin) in H. now inversion H.
  - intros Ea. now rewrite (selected_not_alias _ _ Ea).
Qed.

Lemma normalize_encoding_same_pointer_iff_witness :
  cstring_at sample_mem (Ptr (Dyn 1) 0) = Some "ISO646-US"
  /\ (normalize_encoding (Ptr (Dyn 1) 0) sample_mem
      = Some (Ptr (Dyn 1) 0, sample_mem)
      <-> is_alias "ISO646-US" = false).
Proof.
  split; [reflexivity|].
  apply (normalize_encoding_same_pointer_iff sample_mem (Ptr (Dyn 1) 0)
           "ISO646-US"). reflexivity.
Defined.

(** X6. For an alias the result is a string literal, storage that the caller
    does not own: it is no pointer into a caller's object, and the name it
    points to reads the same in every memory, so it survives the argument's
    buffer being overwritten or released. *)
Theorem normalize_encoding_alias_static (m : mem) (p : ptr) (s : string) :
  cstring_at m p = Some s ->
  is_alias s = true ->
  exists canon,
    normalize_encoding p m = Some (Ptr (Static canon) 0, m)
    /\ In canon canonical_names
    /\ forall m', cstring_at m' (Ptr (Static canon) 0) = Some canon.
Proof.
  intros H Ha. destruct (selected_alias p s Ha) as (canon & Hsel & Hin & _).
  exists canon. rewrite (normalize_encoding_spec _ _ _ H), Hsel.
  split; [reflexivity|]. split; [exact Hin|].
  intros m'. now apply cstring_at_canonical.
Qed.

Lemma normalize_encoding_alias_static_witness :
  cstring_at sample_mem (Ptr (Dyn 1) 0) = Some "ISO646-US"
  /\ is_alias "ISO646-US" = true
  /\ exists canon,
       normalize_encoding (Ptr (Dyn 1) 0) sample_mem
       = Some (Ptr (Static canon) 0, sample_mem)
       /\ In canon canonical_names
       /\ forall m', cstring_at m' (Ptr (Static canon) 0) = Some canon.
Proof.
  split; [reflexivity|]. split; [reflexivity|].
  apply (normalize_encoding_alias_static sample_mem (Ptr (Dyn 1) 0) "ISO646-US");
    reflexivity.
Defined.

(** X7. No alias is left after the call: the string the result points to is
    never one of the four aliases. *)
Theorem normalize_encoding_removes_aliases (m : mem) (p : ptr) (s : string) :
  cstring_at m p = Some s ->
  exists q t,
    normalize_encoding p m = Some (q, m)
    /\ cstring_at m q = Some t
    /\ is_alias t = false.
Proof.
  intros H. exists (selected p s).
  rewrite (normalize_encoding_spec _ _ _ H).
  destruct (is_alias s) eqn:Ea.
  - destruct (selected_alias p s Ea) as (canon & Hsel & Hin & _).
    exists canon. rewrite Hsel.
    split; [reflexivity|]. split; [now apply cstring_at_canonical|].
    simpl in Hin. destruct Hin as [<-|[<-|[<-|[]]]]; reflexivity.
  - exists s. rewrite (selected_not_alias _ _ Ea). auto.
Qed.

Lemma normalize_encoding_removes_aliases_witness :
  cstring_at sample_mem (Ptr (Dyn 1) 0) = Some "ISO646-US"
  /\ exists q t,
       normalize_encoding (Ptr (Dyn 1) 0) sample_mem = Some (q, sample_mem)
       /\ cstring_at sample_mem q = Some t
       /\ is_alias t = false.
Proof.
  split; [reflexivity|].
  apply (normalize_encoding_removes_aliases sample_mem (Ptr (Dyn 1) 0)
           "ISO646-US"). reflexivity.
Defined.

End NormalizeUse.

(** ** The record in every build *)

Section RecordBuilds.

Ltac each_build cfg := destruct cfg as [[|] [|] [|]].

Ltac in_names := repeat (first [left; reflexivity | right]).

Ltac expose_members :=
  unfold java_props_t, ifdef;
  cbn [app WIN32 JDK_ARCH_ABI_PROP_NAME MACOSX].

Ltac member_case :=
  first
    [ intros _; intros [E|[E|[E|[E|[]]]]]; discriminate E
    | intros _; reflexivity
    | intros E; discriminate E
    | intros Hn; exfalso; apply Hn; in_names ].

(** X8. [sun_arch_abi] is a member exactly when [JDK_ARCH_ABI_PROP_NAME] is
    defined, a [char *] placed after the first three members; the other
    members are those of the build without the symbol, in the same order. *)
Theorem sun_arch_abi_conditional (cfg : config) :
  member_type cfg "sun_arch_abi"
  = (if JDK_ARCH_ABI_PROP_NAME cfg then Some (Tptr Tchar) else None)
  /\ java_props_t cfg
     = firstn 3 (java_props_t (without_arch_abi cfg))
       ++ ifdef (JDK_ARCH_ABI_PROP_NAME cfg)
            [ {| m_type := Tptr Tchar; m_name := "sun_arch_abi" |} ]
       ++ skipn 3 (java_props_t (without_arch_abi cfg)).
Proof.
  each_build cfg; split; reflexivity.
Qed.

(** X9. [WIN32] changes no member, only what [nchar] names: the declaration is
    the same with and without it, every build has the 27 common members,
    one more with [JDK_ARCH_ABI_PROP_NAME] and 13 more with [MACOSX]. *)
Theorem java_props_t_shape (cfg : config) (w : bool) :
  java_props_t (with_win32 w cfg) = java_props_t cfg
  /\ length (java_props_t cfg)
     = 27 + (if JDK_ARCH_ABI_PROP_NAME cfg then 1 else 0)
          + (if MACOSX cfg then 13 else 0).
Proof.
  each_build cfg; destruct w; split; reflexivity.
Qed.

(** X10. Every member is text behind a pointer, except the four [int] proxy
    flags; [cpu_isalist] is the one member declared [const], and the four
    [nchar *] members are the only ones whose type depends on the build. *)
Theorem java_props_t_member_types (cfg : config) :
  Forall (fun d =>
            match m_type d with
            | Tint => In (m_name d)
                         (map (fun proto => String.append proto "ProxyEnabled")
                              proxy_protocols)
            | Tptr Tchar => True
            | Tptr Tnchar => In (m_name d) native_text_fields
            | Tptr (Tconst Tchar) => m_name d = "cpu_isalist"
            | _ => False
            end)
         (java_props_t cfg)
  /\ Forall (fun d => resolve (with_win32 false cfg) (m_type d)
                      = resolve (with_win32 true cfg) (m_type d)
                      <-> ~ In (m_name d) native_text_fields)
            (java_props_t cfg).
Proof.
  split.
  - each_build cfg; expose_members;
      repeat (apply List.Forall_cons;
              [cbn; first [exact I | reflexivity | in_names]|]);
      apply List.Forall_nil.
  - each_build cfg; expose_members;
      repeat (apply List.Forall_cons; [cbn; split; member_case|]);
      apply List.Forall_nil.
Qed.

End RecordBuilds.
